(** * Billing front-end: resource hooks and view-model mapping

    A shallow embedding of [src/billable-services/billable-service.resource.ts]
    (the hooks [useBillableServices], [useServiceTypes], [usePaymentModes],
    [useConceptsSearch] and the mutation helper [createBillableSerice]),
    of the cached query they are built on, and of the bill view-model that
    [src/bills-table/bills-table.test.tsx] exercises. *)

From Stdlib Require Import Ascii.
From stdpp Require Import base strings pretty list gmap.

Set Warnings "-register-all".

Local Open Scope Z_scope.
Local Open Scope string_scope.

(** ** JavaScript values *)

(** Function values the hooks hand out: the revalidation callback of a
    cached query, bound to the key of that query. *)
Inductive fnRef :=
  | BoundMutate (key : option string).

(** The values that flow through the hooks.  Numbers are the integers
    (the model has no NaN and no fractions); an object is the list of its
    own properties, looked up from the front. *)
Inductive value :=
  | VUndefined
  | VNull
  | VBool (b : bool)
  | VNum (n : Z)
  | VStr (s : string)
  | VArr (xs : list value)
  | VObj (fields : list (string * value))
  | VFun (f : fnRef).

(** What a synchronous evaluation can raise. [TypeError p] is the error of
    reading property [p] of [undefined] or [null]. *)
Inductive exn :=
  | TypeError (reading : string).

Inductive result (A : Type) :=
  | Ok (a : A)
  | Throw (e : exn).
Arguments Ok {A} a.
Arguments Throw {A} e.

#[global] Instance result_ret : MRet result := λ A a, Ok a.
#[global] Instance result_bind : MBind result := λ A B f m,
  match m with
  | Ok a => f a
  | Throw e => Throw e
  end.

(** [v == null], that is [v] is [undefined] or [null]. *)
Definition isNullish (v : value) : bool :=
  match v with
  | VUndefined | VNull => true
  | _ => false
  end.

(** JavaScript truthiness ([cond ? a : b]). *)
Definition truthy (v : value) : bool :=
  match v with
  | VUndefined | VNull => false
  | VBool b => b
  | VNum n => negb (Z.eqb n 0)
  | VStr s => match s with EmptyString => false | String _ _ => true end
  | VArr _ | VObj _ | VFun _ => true
  end.

Fixpoint ownProperty (fields : list (string * value)) (k : string) : option value :=
  match fields with
  | [] => None
  | (k', v) :: rest => if String.eqb k' k then Some v else ownProperty rest k
  end.

(** [v.k].  Reading a property of [undefined] or [null] throws; an object
    yields its own property or [undefined]; arrays and strings have
    [length]; every other read yields [undefined] (the property names the
    hooks read are not inherited from a built-in prototype). *)
Definition getProp (v : value) (k : string) : result value :=
  match v with
  | VUndefined | VNull => Throw (TypeError k)
  | VObj fields => Ok (default VUndefined (ownProperty fields k))
  | VArr xs => Ok (if String.eqb k "length" then VNum (Z.of_nat (length xs)) else VUndefined)
  | VStr s => Ok (if String.eqb k "length" then VNum (Z.of_nat (String.length s)) else VUndefined)
  | VBool _ | VNum _ | VFun _ => Ok VUndefined
  end.

(** [v?.rest]: a nullish [v] short-circuits the whole chain to [undefined]. *)
Definition optChain (v : value) (rest : value → result value) : result value :=
  if isNullish v then Ok VUndefined else rest v.

(** [v ?? d]. *)
Definition coalesce (v d : value) : value :=
  if isNullish v then d else v.

(** Names of the own properties of an object, in the order written. *)
Definition ownKeys (v : value) : list string :=
  match v with
  | VObj fields => fields.*1
  | _ => []
  end.

Definition isFunction (v : value) : bool :=
  match v with
  | VFun _ => true
  | _ => false
  end.

(** ** The framework the hooks import *)

(** A promise is a handle on the request that settles it. *)
Inductive Promise :=
  | PromiseOf (request : nat).

(** The second argument of [openmrsFetch]. *)
Record FetchInit := {
  method : string;
  body : value;
  headers : list (string * string)
}.

(** What [useSWR] returns. *)
Record SWRResponse := {
  data : value;
  error : value;
  isLoading : bool;
  isValidating : bool;
  mutate : value
}.

(** The imports of the resource file from [swr] and
    [@openmrs/esm-framework], over a state [W] that their effects act on:
    the constant [restBaseUrl], the client [openmrsFetch(url, init?)] and
    the cached query [useSWR(key, fetcher)]. *)
Class Framework (W : Type) := {
  restBaseUrl : string;
  openmrsFetch : string → option FetchInit → W → Promise * W;
  useSWR : option string → (string → W → Promise * W) → W → SWRResponse * W
}.

(** ** billable-service.resource.ts *)

Definition billableServicesUrl : string :=
  "/ws/rest/v1/cashier/billableService?v=custom:(uuid,name,shortName,serviceStatus,serviceType:(display),servicePrices:(uuid,name,price))".

Definition serviceTypesUrl : string :=
  "/ws/rest/v1/concept/21b8cf43-9f9f-4d02-9f4a-d710ece54261?v=custom:(setMembers:(uuid,display))".

Definition billableServiceEndpoint : string :=
  "/ws/rest/v1/cashier/api/billable-service".

Section Resource.
Context {W : Type} {F : Framework W}.

(** [openmrsFetch] passed as the fetcher: SWR calls it with the key alone. *)
Definition fetcher : string → W → Promise * W :=
  λ key, openmrsFetch key None.

Definition paymentModesUrl : string :=
  restBaseUrl +:+ "cashier/paymentMode".

Definition conceptsSearchUrl (conceptToLookup : string) : string :=
  "/ws/rest/v1/conceptsearch?q=" +:+ conceptToLookup.

Definition useBillableServices (w : W) : result value * W :=
  let url := billableServicesUrl in
  let '(r, w) := useSWR (Some url) fetcher w in
  (results ← optChain (data r) (λ d, d ← getProp d "data"; getProp d "results");
   mret (VObj [("billableServices", coalesce results (VArr []));
               ("isLoading", VBool (isLoading r));
               ("isValidating", VBool (isValidating r));
               ("error", error r);
               ("mutate", mutate r)]),
   w).

Definition useServiceTypes (w : W) : result value * W :=
  let url := serviceTypesUrl in
  let '(r, w) := useSWR (Some url) fetcher w in
  (setMembers ← optChain (data r) (λ d, d ← getProp d "data"; getProp d "setMembers");
   mret (VObj [("serviceTypes", coalesce setMembers (VArr []));
               ("error", error r);
               ("isLoading", VBool (isLoading r))]),
   w).

Definition usePaymentModes (w : W) : result value * W :=
  let url := paymentModesUrl in
  let '(r, w) := useSWR (Some url) fetcher w in
  (results ← optChain (data r) (λ d, d ← getProp d "data"; getProp d "results");
   mret (VObj [("paymentModes", coalesce results (VArr []));
               ("error", error r);
               ("isLoading", VBool (isLoading r))]),
   w).

Definition createBillableSerice (payload : value) (w : W) : Promise * W :=
  let url := billableServiceEndpoint in
  openmrsFetch url
    (Some {| method := "POST";
             body := payload;
             headers := [("Content-Type", "application/json")] |})
    w.

(** The term is a [string], as the signature has it: it is falsy exactly
    when it is empty, and [`${conceptToLookup}`] is the term itself. *)
Definition useConceptsSearch (conceptToLookup : string) (w : W) : result value * W :=
  let conditionsSearchUrl := conceptsSearchUrl conceptToLookup in
  let '(r, w) :=
    useSWR (if truthy (VStr conceptToLookup) then Some conditionsSearchUrl else None)
           fetcher w in
  (results ← optChain (data r)
               (λ d, d ← getProp d "data"; optChain d (λ d, getProp d "results"));
   mret (VObj [("searchResults", coalesce results (VArr []));
               ("error", error r);
               ("isSearching", VBool (isLoading r))]),
   w).
End Resource.

(** ** The cached query *)

(** A request as the client sends it; no [init] is a plain GET. *)
Record Request := {
  reqUrl : string;
  reqInit : option FetchInit
}.

(** One cache entry: the last value, the last error and the request in
    flight, if any. *)
Record Entry := {
  entryValue : value;
  entryError : value;
  inFlightPromise : option Promise
}.

(** The state the framework acts on: the keyed cache and the requests
    sent so far, oldest first. *)
Record World := {
  cache : gmap string Entry;
  network : list Request
}.

Inductive Settlement :=
  | Fulfilled (v : value)
  | Rejected (reason : value).

(** Modelled from the spec: the resource client behind [openmrsFetch]
    (an import from [@openmrs/esm-framework], whose code is not at hand).  It sends
    one request and returns the promise of that request; it knows no cache. *)
Definition clientRequest (url : string) (init : option FetchInit) (w : World) : Promise * World :=
  (PromiseOf (length (network w)),
   {| cache := cache w;
      network := (network w ++ [{| reqUrl := url; reqInit := init |}])%list |}).

Definition responseOf (key : string) (e : Entry) : SWRResponse :=
  let validating := bool_decide (is_Some (inFlightPromise e)) in
  {| data := entryValue e;
     error := entryError e;
     isLoading := validating && isNullish (entryValue e);
     isValidating := validating;
     mutate := VFun (BoundMutate (Some key)) |}.

(** Modelled from the spec: the cached query hook of section 4.1 (the
    [swr] import, whose code is not at hand).  A [null] key disables the request and
    returns at once with no data and [isLoading = false]; a key that has an
    entry is served from it (identical keys share one request); a key
    without an entry starts the one request for it. *)
Definition query (key : option string) (fetch : string → World → Promise * World)
    (w : World) : SWRResponse * World :=
  match key with
  | None =>
      ({| data := VUndefined; error := VUndefined;
          isLoading := false; isValidating := false;
          mutate := VFun (BoundMutate None) |}, w)
  | Some k =>
      match cache w !! k with
      | Some e => (responseOf k e, w)
      | None =>
          let '(p, w1) := fetch k w in
          let e := {| entryValue := VUndefined; entryError := VUndefined;
                      inFlightPromise := Some p |} in
          (responseOf k e, {| cache := <[k := e]> (cache w1); network := network w1 |})
      end
  end.

(** Modelled from the spec: how a request in flight ends (section 4.1).
    On success the data is set and the error cleared; on failure the error
    is set and the data stays what it was. *)
Definition settle (k : string) (s : Settlement) (w : World) : World :=
  match cache w !! k with
  | None => w
  | Some e =>
      let e' :=
        match s with
        | Fulfilled v =>
            {| entryValue := v; entryError := VUndefined; inFlightPromise := None |}
        | Rejected r =>
            {| entryValue := entryValue e; entryError := r; inFlightPromise := None |}
        end in
      {| cache := <[k := e']> (cache w); network := network w |}
  end.

(** The framework over [World], for a given value of the constant
    [restBaseUrl] (declared in [@openmrs/esm-framework]). *)
Definition cachedQuery (base : string) : Framework World := {|
  restBaseUrl := base;
  openmrsFetch := clientRequest;
  useSWR := query
|}.

Definition emptyWorld : World := {| cache := ∅; network := [] |}.

(** A spy in place of the framework, as a test would install it: it
    records, in call order, the key of every [useSWR] call and answers with
    no data. *)
Definition spy (base : string) : Framework (list (option string)) := {|
  restBaseUrl := base;
  openmrsFetch := λ _ _ (log : list (option string)), (PromiseOf 0, log);
  useSWR := λ key _ (log : list (option string)),
    ({| data := VUndefined; error := VUndefined;
        isLoading := false; isValidating := false;
        mutate := VFun (BoundMutate key) |}, (log ++ [key])%list)
|}.

(** The keys a hook passes to [useSWR] in one call. *)
Definition keysRequested (base : string)
    (hook : ∀ W, Framework W → W → result value * W) : list (option string) :=
  (hook _ (spy base) []).2.

(** ** Bills and their view-model *)

Definition sumZ (xs : list Z) : Z := foldr Z.add 0 xs.

Module Bills.

(** Data model of section 3; amounts are integers. *)
Record LineItem := {
  uuid : string;
  billableService : string;
  price : Z;
  quantity : option Z;
  paymentStatus : string
}.

Record Bill := {
  billUuid : string;
  patientUuid : string;
  patientName : string;
  identifier : string;
  visitType : string;
  dateCreated : string;
  status : string;
  lineItems : list LineItem;
  totalAmount : Z;
  tenderedAmount : Z;
  receiptNumber : string
}.

(** A line item with its derived total. *)
Record MappedLine := {
  item : LineItem;
  lineTotal : Z
}.

Record MappedBill := {
  source : Bill;
  lines : list MappedLine;
  paidItems : list MappedLine;
  unpaidItems : list MappedLine;
  unpaidTotal : Z
}.

Definition isUnpaid (l : MappedLine) : Prop :=
  paymentStatus (item l) ≠ "PAID".

#[global] Instance isUnpaid_dec l : Decision (isUnpaid l).
Proof. unfold isUnpaid. apply _. Defined.

(** Modelled from the spec: the derived field of a line item,
    [lineTotal = price * quantity] with the quantity 1 when absent (the
    mapping lives in [billing.resource], whose code is not at hand). *)
Definition mapLineItem (li : LineItem) : MappedLine :=
  {| item := li; lineTotal := price li * default 1 (quantity li) |}.

(** Modelled from the spec: the Bill-to-MappedBill mapping of section
    4.2 (the code of [billing.resource] is not at hand): line totals, the
    partition by [paymentStatus === 'PAID'], and the unpaid total. *)
Definition mapBill (b : Bill) : MappedBill :=
  let ls := mapLineItem <$> lineItems b in
  let unpaid := filter isUnpaid ls in
  {| source := b;
     lines := ls;
     paidItems := filter (λ l, ¬ isUnpaid l) ls;
     unpaidItems := unpaid;
     unpaidTotal := sumZ (lineTotal <$> unpaid) |}.

(** Modelled from the spec: the selection rule of the invoice view
    (the code of [invoice.component] is not at hand): a line is selected for
    payment when it is not already PAID, and the total shown is the sum
    over the selected lines. *)
Definition selectedByDefault (mb : MappedBill) : list MappedLine :=
  filter isUnpaid (lines mb).

Definition defaultTotal (mb : MappedBill) : Z :=
  sumZ (lineTotal <$> selectedByDefault mb).

(** The bills of the invoice tests, with the fields the tests leave out
    left empty. *)
Definition testBill (items : list LineItem) : Bill :=
  {| billUuid := "bill-uuid"; patientUuid := "patient-uuid"; patientName := "";
     identifier := ""; visitType := ""; dateCreated := "2023-08-31T12:00:00Z";
     status := "PAID"; lineItems := items; totalAmount := 200;
     tenderedAmount := 150; receiptNumber := "INV12345" |}.

Definition pendingLine : LineItem :=
  {| uuid := "line-item-1"; billableService := ""; price := 100;
     quantity := Some 2; paymentStatus := "PENDING" |}.

Definition paidLine : LineItem :=
  {| uuid := "line-item-2"; billableService := ""; price := 50;
     quantity := Some 1; paymentStatus := "PAID" |}.

Definition unquantifiedLine : LineItem :=
  {| uuid := "line-item-uuid-1"; billableService := ""; price := 100;
     quantity := None; paymentStatus := "PENDING" |}.

End Bills.

Module BillsTable.
Import Bills.








End BillsTable.

(** ** The test doubles of bills-table.test.tsx *)

Module Mocks.

(** [s.startsWith(p)], with what follows [p]. *)
Fixpoint stripPrefix (p s : string) : option string :=
  match p, s with
  | "", _ => Some s
  | String a p', String b s' => if Ascii.eqb a b then stripPrefix p' s' else None
  | String _ _, "" => None
  end.

(** The text before and after the first occurrence of [p] in [s]. *)
Fixpoint firstOccurrence (p s : string) : option (string * string) :=
  match stripPrefix p s with
  | Some rest => Some ("", rest)
  | None =>
      match s with
      | "" => None
      | String c s' => (λ ab, (String c ab.1, ab.2)) <$> firstOccurrence p s'
      end
  end.

(** The text a replacement string stands for when the pattern of
    [replace] is a string: [$$] is a dollar sign, [$&] the matched text,
    [$`] the text before the match and [$'] the text after it; without
    capture groups every other character, a lone [$] too, stands for
    itself. *)
Fixpoint getSubstitution (matched before after replacement : string) : string :=
  match replacement with
  | "" => ""
  | String c rest =>
      if Ascii.eqb c "$"%char then
        match rest with
        | "" => "$"
        | String d rest' =>
            if Ascii.eqb d "$"%char then String "$"%char (getSubstitution matched before after rest')
            else if Ascii.eqb d "&"%char then matched +:+ getSubstitution matched before after rest'
            else if Ascii.eqb d "`"%char then before +:+ getSubstitution matched before after rest'
            else if Ascii.eqb d "'"%char then after +:+ getSubstitution matched before after rest'
            else String c (getSubstitution matched before after rest)
        end
      else String c (getSubstitution matched before after rest)
  end.

(** [s.replace(pattern, replacement)] for a string [pattern]: the first
    occurrence only, and [s] itself when there is none. *)
Definition replace (s pattern replacement : string) : string :=
  match firstOccurrence pattern s with
  | None => s
  | Some (before, after) =>
      before +:+ getSubstitution pattern before after replacement +:+ after
  end.

Record TemplateParams := {
  patientUuid : string;
  uuid : string
}.

(** [<a href=...>children</a>] *)
Record Anchor := {
  href : string;
  children : string
}.

(** The mock of [ConfigurableLink]. *)
Definition ConfigurableLink (children : string) (to : string)
    (templateParams : TemplateParams) : Anchor :=
  let resolvedTo :=
    replace (replace to "${patientUuid}" (patientUuid templateParams))
            "${uuid}" (uuid templateParams) in
  {| href := resolvedTo; children := children |}.

(** The mock of [ErrorState]: the child of its [div],
    [error?.message || error]. *)
Definition ErrorState (error : value) : result value :=
  message ← optChain error (λ e, getProp e "message");
  mret (if truthy message then message else error).

(** [Number.isSafeInteger]: the integers that are numbers of their own,
    from [-(2^53 - 1)] to [2^53 - 1]. *)
Definition isSafeInteger (value : Z) : bool :=
  Z.leb (- (2 ^ 53 - 1)) value && Z.leb value (2 ^ 53 - 1).

(** [value.toFixed(2)] of a safe integer: all its digits, then [.00].
    Beyond the safe integers this is not what [toFixed] prints. *)
Definition toFixed2 (value : Z) : string :=
  pretty value +:+ ".00".

(** The [format] of the mock of [Intl.NumberFormat], on safe integers. *)
Definition format (value : Z) : string :=
  "$" +:+ toFixed2 value.

(** A text without a dollar sign. *)
Fixpoint dollarFree (s : string) : bool :=
  match s with
  | "" => true
  | String c s' => negb (Ascii.eqb c "$"%char) && dollarFree s'
  end.

(** [p] is a substring of [s]. *)
Definition occursIn (p s : string) : Prop :=
  ∃ before after, s = before +:+ p +:+ after.

End Mocks.

(** The fetched value carries a body whose list under [k] is the
    non-nullish [xs]. *)
Definition listPresent (k : string) (d xs : value) : Prop :=
  ∃ body, getProp d "data" = Ok body ∧ getProp body k = Ok xs ∧ isNullish xs = false.

(** ** Statements about hook results *)

(** The value of property [k] of what a hook returned; a hook that threw
    has none. *)
Definition field (k : string) (o : result value) : result value :=
  o ≫= λ v, getProp v k.

(** The fetched value is absent, or its body is there and the list under
    [k] is absent or empty. *)
Definition listAbsentOrEmpty (k : string) (d : value) : Prop :=
  isNullish d = true ∨
  ∃ body xs, getProp d "data" = Ok body ∧ isNullish body = false ∧
             getProp body k = Ok xs ∧ (isNullish xs = true ∨ xs = VArr []).

(** The fetched value is there, its inner [data] is not. *)
Definition innerDataAbsent (d : value) : Prop :=
  isNullish d = false ∧
  ∃ body, getProp d "data" = Ok body ∧ isNullish body = true.

(** The query shape of section 4.1 on a returned object. *)
Definition queryShape (o : value) : Prop :=
  (∀ k, k ∈ ["isLoading"; "isValidating"; "error"; "mutate"] → k ∈ ownKeys o) ∧
  ∃ f, getProp o "mutate" = Ok (VFun f).

(** A world in which the request for [key] has been sent and answered
    with [answer]. *)
Definition answered (key : string) (answer : value) : World :=
  settle key (Fulfilled answer)
    (query (Some key) (λ k, clientRequest k None) emptyWorld).2.

(** An answer of the client that carries no body. *)
Definition noContentResponse : value :=
  VObj [("status", VNum 204); ("data", VNull)].

(** The [init] that [createBillableSerice] sends. *)
Definition jsonPost (payload : value) : FetchInit :=
  {| method := "POST"; body := payload;
     headers := [("Content-Type", "application/json")] |}.

(** Closes a goal from [H : x ∈ l] when [x] differs from every element of
    the explicit list [l]. *)
Ltac no_such_element H :=
  repeat (apply elem_of_cons in H as [H | H]; [discriminate|]);
  by apply elem_of_nil in H.

(** * Properties of the evaluation primitives *)

Lemma truthy_string (s : string) : truthy (VStr s) = false ↔ s = "".
Proof. destruct s; simpl; split; congruence. Qed.

Lemma getProp_defined (v : value) (k : string) :
  isNullish v = false → ∃ x, getProp v k = Ok x.
Proof. destruct v; simpl; try discriminate; eauto. Qed.

Lemma getProp_nullish (v : value) (k : string) :
  isNullish v = true → getProp v k = Throw (TypeError k).
Proof. destruct v; simpl; congruence. Qed.

Lemma getProp_Ok_nonnullish (v x : value) (k : string) :
  getProp v k = Ok x → isNullish v = false.
Proof. destruct v; simpl; congruence. Qed.

Lemma coalesce_nullish (v d : value) : isNullish v = true → coalesce v d = d.
Proof. unfold coalesce. by intros ->. Qed.

(** [d?.data.k ?? []] on a state of [listAbsentOrEmpty]. *)
Lemma outer_guard_default (k : string) (d : value) :
  listAbsentOrEmpty k d →
  ∃ xs, optChain d (λ d, d ← getProp d "data"; getProp d k) = Ok xs ∧
        coalesce xs (VArr []) = VArr [].
Proof.
  intros [Hd | (body & xs & Hbody & _ & Hxs & Hempty)].
  - exists VUndefined. unfold optChain. by rewrite Hd.
  - exists xs. unfold optChain.
    rewrite (getProp_Ok_nonnullish _ _ _ Hbody), Hbody. simpl. split; [done|].
    destruct Hempty as [Hn | ->]; [by apply coalesce_nullish | done].
Qed.

(** [d?.data?.k ?? []] on a state of [listAbsentOrEmpty]. *)
Lemma both_guards_default (k : string) (d : value) :
  listAbsentOrEmpty k d →
  ∃ xs, optChain d (λ d, d ← getProp d "data"; optChain d (λ d, getProp d k)) = Ok xs ∧
        coalesce xs (VArr []) = VArr [].
Proof.
  intros [Hd | (body & xs & Hbody & Hnb & Hxs & Hempty)].
  - exists VUndefined. unfold optChain. by rewrite Hd.
  - exists xs. unfold optChain at 1.
    rewrite (getProp_Ok_nonnullish _ _ _ Hbody), Hbody. simpl.
    unfold optChain. rewrite Hnb. split; [done|].
    destruct Hempty as [Hn | ->]; [by apply coalesce_nullish | done].
Qed.

(** [d?.data.k] when the inner [data] is absent: the read of [k] throws. *)
Lemma outer_guard_throws (k : string) (d : value) :
  innerDataAbsent d →
  optChain d (λ d, d ← getProp d "data"; getProp d k) = Throw (TypeError k).
Proof.
  intros (Hd & body & Hbody & Hnull). unfold optChain.
  rewrite Hd, Hbody. simpl. by apply getProp_nullish.
Qed.

(** [d?.data?.k] when the inner [data] is absent: [undefined]. *)
Lemma both_guards_absorb (k : string) (d : value) :
  innerDataAbsent d →
  optChain d (λ d, d ← getProp d "data"; optChain d (λ d, getProp d k)) = Ok VUndefined.
Proof.
  intros (Hd & body & Hbody & Hnull). unfold optChain at 1.
  rewrite Hd, Hbody. simpl. unfold optChain. by rewrite Hnull.
Qed.

(** [d?.data.k] throws only on the read of [k]. *)
Lemma outer_guard_cases (k : string) (d : value) :
  optChain d (λ d, d ← getProp d "data"; getProp d k) = Throw (TypeError k) ∨
  ∃ x, optChain d (λ d, d ← getProp d "data"; getProp d k) = Ok x.
Proof.
  unfold optChain. destruct (isNullish d) eqn:Hd; [eauto|].
  destruct (getProp_defined d "data" Hd) as [body ->]. simpl.
  destruct (isNullish body) eqn:Hb.
  - left. by apply getProp_nullish.
  - right. by apply getProp_defined.
Qed.

(** [d?.data?.k] never throws. *)
Lemma both_guards_total (k : string) (d : value) :
  ∃ x, optChain d (λ d, d ← getProp d "data"; optChain d (λ d, getProp d k)) = Ok x.
Proof.
  unfold optChain at 1. destruct (isNullish d) eqn:Hd; [eauto|].
  destruct (getProp_defined d "data" Hd) as [body ->]. simpl.
  unfold optChain. destruct (isNullish body) eqn:Hb; [eauto|].
  by apply getProp_defined.
Qed.

(** * The resource hooks *)

Section HookResults.
Context {W : Type} (F : Framework W).

(** Each hook is one [useSWR] call followed by the mapping of its answer. *)
Lemma useBillableServices_unfold (w : W) :
  useBillableServices w =
  let r := (useSWR (Some billableServicesUrl) fetcher w).1 in
  (results ← optChain (data r) (λ d, d ← getProp d "data"; getProp d "results");
   mret (VObj [("billableServices", coalesce results (VArr []));
               ("isLoading", VBool (isLoading r));
               ("isValidating", VBool (isValidating r));
               ("error", error r);
               ("mutate", mutate r)]),
   (useSWR (Some billableServicesUrl) fetcher w).2).
Proof. unfold useBillableServices. by destruct (useSWR _ _ w). Qed.

Lemma useServiceTypes_unfold (w : W) :
  useServiceTypes w =
  let r := (useSWR (Some serviceTypesUrl) fetcher w).1 in
  (setMembers ← optChain (data r) (λ d, d ← getProp d "data"; getProp d "setMembers");
   mret (VObj [("serviceTypes", coalesce setMembers (VArr []));
               ("error", error r);
               ("isLoading", VBool (isLoading r))]),
   (useSWR (Some serviceTypesUrl) fetcher w).2).
Proof. unfold useServiceTypes. by destruct (useSWR _ _ w). Qed.

Lemma usePaymentModes_unfold (w : W) :
  usePaymentModes w =
  let r := (useSWR (Some paymentModesUrl) fetcher w).1 in
  (results ← optChain (data r) (λ d, d ← getProp d "data"; getProp d "results");
   mret (VObj [("paymentModes", coalesce results (VArr []));
               ("error", error r);
               ("isLoading", VBool (isLoading r))]),
   (useSWR (Some paymentModesUrl) fetcher w).2).
Proof. unfold usePaymentModes. by destruct (useSWR _ _ w). Qed.

Lemma useConceptsSearch_unfold (t : string) (w : W) :
  useConceptsSearch t w =
  let key := if truthy (VStr t) then Some (conceptsSearchUrl t) else None in
  let r := (useSWR key fetcher w).1 in
  (results ← optChain (data r)
               (λ d, d ← getProp d "data"; optChain d (λ d, getProp d "results"));
   mret (VObj [("searchResults", coalesce results (VArr []));
               ("error", error r);
               ("isSearching", VBool (isLoading r))]),
   (useSWR key fetcher w).2).
Proof. unfold useConceptsSearch. by destruct (useSWR _ _ w). Qed.
End HookResults.

(** Whatever the cached query answers: when the fetched value is absent,
    or its body is there and the [results] list in it is absent or empty,
    [useBillableServices], [usePaymentModes] and [useConceptsSearch] return
    the empty array in [billableServices], [paymentModes] and
    [searchResults]; [useServiceTypes] does the same for [setMembers]. *)
Theorem hooks_default_to_empty_list {W : Type} (F : Framework W) (w : W) :
  (listAbsentOrEmpty "results" (data (useSWR (Some billableServicesUrl) fetcher w).1) →
     field "billableServices" (useBillableServices w).1 = Ok (VArr []))
  ∧ (listAbsentOrEmpty "results" (data (useSWR (Some paymentModesUrl) fetcher w).1) →
     field "paymentModes" (usePaymentModes w).1 = Ok (VArr []))
  ∧ (∀ t : string,
     listAbsentOrEmpty "results"
       (data (useSWR (if truthy (VStr t) then Some (conceptsSearchUrl t) else None)
                     fetcher w).1) →
     field "searchResults" (useConceptsSearch t w).1 = Ok (VArr []))
  ∧ (listAbsentOrEmpty "setMembers" (data (useSWR (Some serviceTypesUrl) fetcher w).1) →
     field "serviceTypes" (useServiceTypes w).1 = Ok (VArr [])).
Proof.
  repeat split.
  - intros Hd. rewrite useBillableServices_unfold. cbv zeta. cbn [fst].
    destruct (outer_guard_default _ _ Hd) as (xs & -> & Hxs). simpl. by rewrite Hxs.
  - intros Hd. rewrite usePaymentModes_unfold. cbv zeta. cbn [fst].
    destruct (outer_guard_default _ _ Hd) as (xs & -> & Hxs). simpl. by rewrite Hxs.
  - intros t Hd. rewrite useConceptsSearch_unfold. cbv zeta. cbn [fst].
    destruct (both_guards_default _ _ Hd) as (xs & -> & Hxs). simpl. by rewrite Hxs.
  - intros Hd. rewrite useServiceTypes_unfold. cbv zeta. cbn [fst].
    destruct (outer_guard_default _ _ Hd) as (xs & -> & Hxs). simpl. by rewrite Hxs.
Qed.


Lemma hooks_default_to_empty_list_witness :
  field "billableServices"
    (useBillableServices (F := cachedQuery "/ws/rest/v1/")
       (answered billableServicesUrl (VObj [("data", VObj [("results", VArr [])])]))).1
    = Ok (VArr [])
  ∧ field "paymentModes"
      (usePaymentModes (F := cachedQuery "/ws/rest/v1/") emptyWorld).1 = Ok (VArr [])
  ∧ field "searchResults"
      (useConceptsSearch (F := cachedQuery "/ws/rest/v1/") "" emptyWorld).1 = Ok (VArr [])
  ∧ field "serviceTypes"
      (useServiceTypes (F := cachedQuery "/ws/rest/v1/")
         (answered serviceTypesUrl (VObj [("data", VObj [])]))).1
    = Ok (VArr []).
Proof.
  split; [|split; [|split]].
  - apply (proj1 (hooks_default_to_empty_list (cachedQuery "/ws/rest/v1/") _)).
    right. exists (VObj [("results", VArr [])]), (VArr []).
    split; [vm_compute; reflexivity|]. split; [done|]. split; [done | by right].
  - apply (proj1 (proj2 (hooks_default_to_empty_list (cachedQuery "/ws/rest/v1/") _))).
    left. vm_compute. reflexivity.
  - apply (proj1 (proj2 (proj2 (hooks_default_to_empty_list (cachedQuery "/ws/rest/v1/") _)))).
    left. vm_compute. reflexivity.
  - apply (proj2 (proj2 (proj2 (hooks_default_to_empty_list (cachedQuery "/ws/rest/v1/") _)))).
    right. exists (VObj []), VUndefined.
    split; [vm_compute; reflexivity|]. split; [done|]. split; [done | by left].
Defined.

(** C1.  The hooks break the claim where [results] is absent because the
    fetched value has no body.  On an answer without content
    ([{status: 204, data: null}]) and on the empty object,
    [useBillableServices], [usePaymentModes] and [useServiceTypes] throw
    the TypeError of reading [results] (or [setMembers]) instead of
    returning the empty array; [useConceptsSearch], which guards the body
    with a second [?.], returns the empty array on the same answers. *)
Lemma hooks_throw_on_answer_without_body :
  (useBillableServices (F := cachedQuery "/ws/rest/v1/")
     (answered billableServicesUrl noContentResponse)).1
    = Throw (TypeError "results")
  ∧ (useBillableServices (F := cachedQuery "/ws/rest/v1/")
       (answered billableServicesUrl (VObj []))).1
    = Throw (TypeError "results")
  ∧ (usePaymentModes (F := cachedQuery "/ws/rest/v1/")
       (answered "/ws/rest/v1/cashier/paymentMode" noContentResponse)).1
    = Throw (TypeError "results")
  ∧ (useServiceTypes (F := cachedQuery "/ws/rest/v1/")
       (answered serviceTypesUrl noContentResponse)).1
    = Throw (TypeError "setMembers")
  ∧ field "searchResults"
      (useConceptsSearch (F := cachedQuery "/ws/rest/v1/") "malaria"
         (answered "/ws/rest/v1/conceptsearch?q=malaria" noContentResponse)).1
    = Ok (VArr [])
  ∧ field "searchResults"
      (useConceptsSearch (F := cachedQuery "/ws/rest/v1/") "malaria"
         (answered "/ws/rest/v1/conceptsearch?q=malaria" (VObj []))).1
    = Ok (VArr []).
Proof. repeat (split; [vm_compute; reflexivity|]). vm_compute. reflexivity. Qed.

(** C10.  When the fetched value is present and its inner [data] is
    absent, [useBillableServices], [useServiceTypes] and [usePaymentModes]
    throw the TypeError of reading [results] (or [setMembers]) from it:
    their [?.] guards the fetched value only.  [useConceptsSearch] guards
    both levels and returns the empty array. *)
Theorem inner_data_guarded_only_by_search {W : Type} (F : Framework W) (w : W) :
  (innerDataAbsent (data (useSWR (Some billableServicesUrl) fetcher w).1) →
     (useBillableServices w).1 = Throw (TypeError "results"))
  ∧ (innerDataAbsent (data (useSWR (Some serviceTypesUrl) fetcher w).1) →
     (useServiceTypes w).1 = Throw (TypeError "setMembers"))
  ∧ (innerDataAbsent (data (useSWR (Some paymentModesUrl) fetcher w).1) →
     (usePaymentModes w).1 = Throw (TypeError "results"))
  ∧ (∀ t : string,
     innerDataAbsent
       (data (useSWR (if truthy (VStr t) then Some (conceptsSearchUrl t) else None)
                     fetcher w).1) →
     field "searchResults" (useConceptsSearch t w).1 = Ok (VArr [])).
Proof.
  repeat split.
  - intros Hd. rewrite useBillableServices_unfold. cbv zeta. cbn [fst].
    by rewrite (outer_guard_throws _ _ Hd).
  - intros Hd. rewrite useServiceTypes_unfold. cbv zeta. cbn [fst].
    by rewrite (outer_guard_throws _ _ Hd).
  - intros Hd. rewrite usePaymentModes_unfold. cbv zeta. cbn [fst].
    by rewrite (outer_guard_throws _ _ Hd).
  - intros t Hd. rewrite useConceptsSearch_unfold. cbv zeta. cbn [fst].
    by rewrite (both_guards_absorb _ _ Hd).
Qed.

Lemma inner_data_guarded_only_by_search_witness :
  (useBillableServices (F := cachedQuery "/ws/rest/v1/")
     (answered billableServicesUrl noContentResponse)).1
    = Throw (TypeError "results")
  ∧ (useServiceTypes (F := cachedQuery "/ws/rest/v1/") (answered serviceTypesUrl noContentResponse)).1
    = Throw (TypeError "setMembers")
  ∧ (usePaymentModes (F := cachedQuery "/ws/rest/v1/")
       (answered "/ws/rest/v1/cashier/paymentMode" noContentResponse)).1
    = Throw (TypeError "results")
  ∧ field "searchResults"
      (useConceptsSearch (F := cachedQuery "/ws/rest/v1/") "malaria"
         (answered "/ws/rest/v1/conceptsearch?q=malaria" noContentResponse)).1
    = Ok (VArr []).
Proof.
  assert (Habsent : ∀ d, d = noContentResponse → innerDataAbsent d).
  { intros d ->. split; [done|]. by exists VNull. }
  split; [|split; [|split]].
  - apply (proj1 (inner_data_guarded_only_by_search (cachedQuery "/ws/rest/v1/") _)).
    apply Habsent. vm_compute. reflexivity.
  - apply (proj1 (proj2 (inner_data_guarded_only_by_search (cachedQuery "/ws/rest/v1/") _))).
    apply Habsent. vm_compute. reflexivity.
  - apply (proj1 (proj2 (proj2
      (inner_data_guarded_only_by_search (cachedQuery "/ws/rest/v1/") _)))).
    apply Habsent. vm_compute. reflexivity.
  - apply (proj2 (proj2 (proj2
      (inner_data_guarded_only_by_search (cachedQuery "/ws/rest/v1/") _)))).
    apply Habsent. vm_compute. reflexivity.
Defined.

(** C3 (as amended).  [useBillableServices] returns its domain field with
    the whole answer of the cached query: [isLoading], [isValidating],
    [error] and [mutate].  [useServiceTypes] and [usePaymentModes] return
    their domain field with [error] and [isLoading] only, and
    [useConceptsSearch] returns [searchResults], [error] and the query's
    [isLoading] under the name [isSearching]; none of these three returns
    [isValidating] or [mutate].  The first three hooks return nothing when
    the read of their list throws. *)
Theorem hook_result_shapes {W : Type} (F : Framework W) (w : W) :
  ((useBillableServices w).1 = Throw (TypeError "results") ∨
   ∃ v, (useBillableServices w).1 =
        let r := (useSWR (Some billableServicesUrl) fetcher w).1 in
        Ok (VObj [("billableServices", v);
                  ("isLoading", VBool (isLoading r));
                  ("isValidating", VBool (isValidating r));
                  ("error", error r);
                  ("mutate", mutate r)]))
  ∧ ((useServiceTypes w).1 = Throw (TypeError "setMembers") ∨
     ∃ v, (useServiceTypes w).1 =
          let r := (useSWR (Some serviceTypesUrl) fetcher w).1 in
          Ok (VObj [("serviceTypes", v);
                    ("error", error r);
                    ("isLoading", VBool (isLoading r))]))
  ∧ ((usePaymentModes w).1 = Throw (TypeError "results") ∨
     ∃ v, (usePaymentModes w).1 =
          let r := (useSWR (Some paymentModesUrl) fetcher w).1 in
          Ok (VObj [("paymentModes", v);
                    ("error", error r);
                    ("isLoading", VBool (isLoading r))]))
  ∧ (∀ t : string,
     ∃ v, (useConceptsSearch t w).1 =
          let r := (useSWR (if truthy (VStr t) then Some (conceptsSearchUrl t) else None)
                           fetcher w).1 in
          Ok (VObj [("searchResults", v);
                    ("error", error r);
                    ("isSearching", VBool (isLoading r))])).
Proof.
  split; [|split; [|split]].
  - rewrite useBillableServices_unfold. cbv zeta. cbn [fst].
    destruct (outer_guard_cases "results"
                (data (useSWR (Some billableServicesUrl) fetcher w).1)) as [-> | [x ->]];
      [by left | right; by eexists].
  - rewrite useServiceTypes_unfold. cbv zeta. cbn [fst].
    destruct (outer_guard_cases "setMembers"
                (data (useSWR (Some serviceTypesUrl) fetcher w).1)) as [-> | [x ->]];
      [by left | right; by eexists].
  - rewrite usePaymentModes_unfold. cbv zeta. cbn [fst].
    destruct (outer_guard_cases "results"
                (data (useSWR (Some paymentModesUrl) fetcher w).1)) as [-> | [x ->]];
      [by left | right; by eexists].
  - intros t. rewrite useConceptsSearch_unfold. cbv zeta. cbn [fst].
    destruct (both_guards_total "results"
                (data (useSWR (if truthy (VStr t) then Some (conceptsSearchUrl t) else None)
                              fetcher w).1)) as [x ->].
    by eexists.
Qed.

(** C3 as stated fails: on a cold cache [useServiceTypes] returns an
    object that has neither [isValidating] nor [mutate]. *)
Lemma useServiceTypes_lacks_query_shape :
  ∃ o, (useServiceTypes (F := cachedQuery "/ws/rest/v1/") emptyWorld).1 = Ok o
       ∧ ownKeys o = ["serviceTypes"; "error"; "isLoading"]
       ∧ ¬ queryShape o.
Proof.
  eexists. split; [vm_compute; reflexivity|]. split; [reflexivity|].
  intros [Hkeys _].
  assert (Hm : "mutate" ∈ ["serviceTypes"; "error"; "isLoading"])
    by (apply Hkeys; repeat constructor).
  no_such_element Hm.
Qed.

(** C6.  [createBillableSerice payload] is exactly one call of the client:
    a POST of [payload] with the header [Content-Type: application/json] to
    the billable-service endpoint.  It returns the promise of that call, so
    the caller sees whatever settlement that promise gets; in the world of
    the cached query it adds that one request to the network and leaves the
    cache as it was. *)
Theorem createBillableSerice_single_post :
  (∀ (W : Type) (F : Framework W) (payload : value) (w : W),
     createBillableSerice payload w
       = openmrsFetch billableServiceEndpoint (Some (jsonPost payload)) w
     ∧ ∀ outcome : Promise → Settlement,
         outcome (createBillableSerice payload w).1
           = outcome (openmrsFetch billableServiceEndpoint (Some (jsonPost payload)) w).1)
  ∧ (∀ (base : string) (payload : value) (w : World),
       let sent := createBillableSerice (F := cachedQuery base) payload w in
       sent.1 = PromiseOf (length (network w))
       ∧ network sent.2
           = (network w ++ [{| reqUrl := "/ws/rest/v1/cashier/api/billable-service";
                               reqInit := Some {| method := "POST"; body := payload;
                                                  headers := [("Content-Type", "application/json")] |} |}])%list
       ∧ cache sent.2 = cache w).
Proof.
  split.
  - intros W F payload w. split; [reflexivity|]. intros outcome. reflexivity.
  - intros base payload w. cbv zeta.
    unfold createBillableSerice, openmrsFetch, cachedQuery, clientRequest. cbn [fst snd network cache].
    done.
Qed.

(** * Keys and requests *)

(** A key without an entry starts exactly one GET for that key. *)
Lemma query_cold (k : string) (w : World) :
  cache w !! k = None →
  network (query (Some k) (λ k, clientRequest k None) w).2
    = (network w ++ [{| reqUrl := k; reqInit := None |}])%list.
Proof. intros Hk. unfold query. by rewrite Hk. Qed.

(** A disabled query leaves the world alone. *)
Lemma query_disabled (fetch : string → World → Promise * World) (w : World) :
  (query None fetch w).2 = w
  ∧ data (query None fetch w).1 = VUndefined
  ∧ isLoading (query None fetch w).1 = false.
Proof. done. Qed.

(** C2.  For an empty (falsy) search term [useConceptsSearch] passes the
    [null] key to the cached query: no request is sent, the cache is left
    alone, and the hook returns an empty [searchResults] with
    [isSearching = false].  For a non-empty term it passes the search URL
    as the key, and the request sent for a key not yet cached is the GET of
    that URL. *)
Theorem useConceptsSearch_key (base : string) (t : string) :
  (truthy (VStr t) = false →
     keysRequested base (λ W F, useConceptsSearch t) = [None]
     ∧ ∀ w : World,
         useConceptsSearch (F := cachedQuery base) t w
           = (Ok (VObj [("searchResults", VArr []);
                        ("error", VUndefined);
                        ("isSearching", VBool false)]), w))
  ∧ (t ≠ "" →
     keysRequested base (λ W F, useConceptsSearch t) = [Some (conceptsSearchUrl t)]
     ∧ ∀ w : World,
         cache w !! conceptsSearchUrl t = None →
         network (useConceptsSearch (F := cachedQuery base) t w).2
           = (network w ++ [{| reqUrl := conceptsSearchUrl t; reqInit := None |}])%list).
Proof.
  split.
  - intros ->%truthy_string. split; [reflexivity|]. intros w. reflexivity.
  - intros Ht. destruct t as [|c t]; [done|]. split; [reflexivity|].
    intros w Hcold. rewrite useConceptsSearch_unfold. cbv zeta. cbn [snd truthy].
    by apply query_cold.
Qed.

Lemma useConceptsSearch_key_witness :
  (keysRequested "/ws/rest/v1/" (λ W F, useConceptsSearch "") = [None]
   ∧ ∀ w : World,
       useConceptsSearch (F := cachedQuery "/ws/rest/v1/") "" w
         = (Ok (VObj [("searchResults", VArr []);
                      ("error", VUndefined);
                      ("isSearching", VBool false)]), w))
  ∧ (keysRequested "/ws/rest/v1/" (λ W F, useConceptsSearch "malaria")
       = [Some "/ws/rest/v1/conceptsearch?q=malaria"]
     ∧ network (useConceptsSearch (F := cachedQuery "/ws/rest/v1/") "malaria" emptyWorld).2
       = [{| reqUrl := "/ws/rest/v1/conceptsearch?q=malaria"; reqInit := None |}]).
Proof.
  split.
  - apply (proj1 (useConceptsSearch_key "/ws/rest/v1/" "")). reflexivity.
  - destruct (proj2 (useConceptsSearch_key "/ws/rest/v1/" "malaria")) as [Hkey Hnet];
      [discriminate|].
    split; [exact Hkey|]. apply (Hnet emptyWorld). reflexivity.
Defined.

(** C8.  The key each hook passes to the cached query, and so the URL of
    the GET it starts: [useBillableServices] asks for the billableService
    path with the custom projection, [useServiceTypes] for the fixed
    concept set, and [usePaymentModes] for [restBaseUrl] followed at once
    by [cashier/paymentMode]. *)
Theorem hook_endpoints (base : string) :
  keysRequested base (@useBillableServices)
    = [Some ("/ws/rest/v1/cashier" +:+
             "/billableService?v=custom:(uuid,name,shortName,serviceStatus,serviceType:(display),servicePrices:(uuid,name,price))")]
  ∧ keysRequested base (@useServiceTypes)
    = [Some ("/ws/rest/v1" +:+
             "/concept/21b8cf43-9f9f-4d02-9f4a-d710ece54261?v=custom:(setMembers:(uuid,display))")]
  ∧ keysRequested base (@usePaymentModes) = [Some (base +:+ "cashier/paymentMode")]
  ∧ ∀ w : World,
      (cache w !! billableServicesUrl = None →
       network (useBillableServices (F := cachedQuery base) w).2
         = (network w ++ [{| reqUrl := billableServicesUrl; reqInit := None |}])%list)
      ∧ (cache w !! (base +:+ "cashier/paymentMode") = None →
         network (usePaymentModes (F := cachedQuery base) w).2
           = (network w ++ [{| reqUrl := base +:+ "cashier/paymentMode";
                               reqInit := None |}])%list).
Proof.
  split; [reflexivity|]. split; [reflexivity|]. split; [reflexivity|].
  intros w. split; intros Hcold.
  - rewrite useBillableServices_unfold. cbv zeta. cbn [snd]. by apply query_cold.
  - rewrite usePaymentModes_unfold. cbv zeta. cbn [snd]. by apply query_cold.
Qed.

Lemma hook_endpoints_witness :
  network (useBillableServices (F := cachedQuery "/ws/rest/v1/") emptyWorld).2
    = [{| reqUrl := billableServicesUrl; reqInit := None |}]
  ∧ network (usePaymentModes (F := cachedQuery "/ws/rest/v1/") emptyWorld).2
    = [{| reqUrl := "/ws/rest/v1/cashier/paymentMode"; reqInit := None |}].
Proof.
  destruct (hook_endpoints "/ws/rest/v1/") as (_ & _ & _ & Hnet).
  destruct (Hnet emptyWorld) as [Hbillable Hpayment].
  split; [apply Hbillable | apply Hpayment]; reflexivity.
Defined.

(** C9.  For a non-empty term the key of [useConceptsSearch] is the term
    appended as it is to [/ws/rest/v1/conceptsearch?q=]: nothing is
    encoded, so a term with reserved URL characters appears verbatim. *)
Theorem conceptsSearch_key_verbatim (base : string) (t : string) :
  t ≠ "" →
  keysRequested base (λ W F, useConceptsSearch t)
    = [Some ("/ws/rest/v1/conceptsearch?q=" +:+ t)].
Proof. intros Ht. destruct t as [|c t]; [done | reflexivity]. Qed.

Lemma conceptsSearch_key_verbatim_witness :
  keysRequested "/ws/rest/v1/" (λ W F, useConceptsSearch "a b&c=d/e?f#g%20")
    = [Some "/ws/rest/v1/conceptsearch?q=a b&c=d/e?f#g%20"].
Proof. apply (conceptsSearch_key_verbatim "/ws/rest/v1/" "a b&c=d/e?f#g%20"). discriminate. Defined.

(** * Bills *)

Section BillMapping.
Import Bills.

Lemma lines_mapBill (b : Bill) : lines (mapBill b) = mapLineItem <$> lineItems b.
Proof. reflexivity. Qed.

Lemma unpaidItems_mapBill (b : Bill) :
  unpaidItems (mapBill b) = filter isUnpaid (lines (mapBill b)).
Proof. reflexivity. Qed.

(** C4.  In the mapped bill every line item of the bill appears with
    its line total, the price times the quantity, the quantity being 1
    when the item has none; the bill with the one item
    [{price: 100, quantity: 2, paymentStatus: 'PENDING'}] has the unpaid
    total 200. *)
Theorem mapped_line_totals :
  (∀ (b : Bill) (l : MappedLine),
     l ∈ lines (mapBill b) →
     item l ∈ lineItems b
     ∧ lineTotal l = price (item l) * match quantity (item l) with
                                      | Some q => q
                                      | None => 1
                                      end)
  ∧ (∀ b : Bill, item <$> lines (mapBill b) = lineItems b)
  ∧ unpaidTotal (mapBill (testBill [pendingLine])) = 200.
Proof.
  split; [|split].
  - intros b l. rewrite lines_mapBill.
    intros (li & -> & Hli)%list_elem_of_fmap. split; [done|].
    unfold mapLineItem. cbn [item lineTotal]. by destruct (quantity li).
  - intros b. rewrite lines_mapBill, <- list_fmap_compose.
    induction (lineItems b) as [|li lis IH]; [done|]. cbn. by f_equal.
  - reflexivity.
Qed.

Lemma mapped_line_totals_witness :
  lineTotal (mapLineItem unquantifiedLine) = 100 * 1
  ∧ lineTotal (mapLineItem pendingLine) = 100 * 2.
Proof.
  split.
  - apply (proj1 mapped_line_totals (testBill [unquantifiedLine]) (mapLineItem unquantifiedLine)).
    rewrite lines_mapBill. cbn. apply list_elem_of_here.
  - apply (proj1 mapped_line_totals (testBill [pendingLine; paidLine]) (mapLineItem pendingLine)).
    rewrite lines_mapBill. cbn. apply list_elem_of_here.
Defined.

(** C5.  The lines the invoice view selects by default are exactly the
    lines of the bill whose payment status is not PAID, and the total
    it shows is the sum of their line totals, which is the unpaid total
    of the mapped bill; for the items
    [{price: 100, quantity: 2, 'PENDING'}, {price: 50, quantity: 1, 'PAID'}]
    the selection is the first item and the total is 200. *)
Theorem unpaid_selected_by_default :
  (∀ (b : Bill) (l : MappedLine),
     l ∈ selectedByDefault (mapBill b)
     ↔ l ∈ lines (mapBill b) ∧ paymentStatus (item l) ≠ "PAID")
  ∧ (∀ b : Bill,
       defaultTotal (mapBill b) = sumZ (lineTotal <$> unpaidItems (mapBill b))
       ∧ defaultTotal (mapBill b) = unpaidTotal (mapBill b))
  ∧ selectedByDefault (mapBill (testBill [pendingLine; paidLine])) = [mapLineItem pendingLine]
  ∧ defaultTotal (mapBill (testBill [pendingLine; paidLine])) = 200.
Proof.
  split; [|split; [|split]].
  - intros b l. unfold selectedByDefault. rewrite list_elem_of_filter.
    unfold isUnpaid. tauto.
  - intros b. unfold defaultTotal, selectedByDefault.
    by rewrite unpaidItems_mapBill.
  - reflexivity.
  - reflexivity.
Qed.
End BillMapping.

(** * The bills table *)

Section TableStates.
Import Bills BillsTable.




End TableStates.

(** * Further properties of the resource hooks *)

Lemma coalesce_never_nullish (v : value) : isNullish (coalesce v (VArr [])) = false.
Proof. unfold coalesce. by destruct (isNullish v) eqn:Hv. Qed.

Lemma outer_guard_present (k : string) (d xs : value) :
  listPresent k d xs →
  optChain d (λ d, d ← getProp d "data"; getProp d k) = Ok xs.
Proof.
  intros (body & Hbody & Hxs & _). unfold optChain.
  rewrite (getProp_Ok_nonnullish _ _ _ Hbody), Hbody. by simpl.
Qed.

Lemma both_guards_present (k : string) (d xs : value) :
  listPresent k d xs →
  optChain d (λ d, d ← getProp d "data"; optChain d (λ d, getProp d k)) = Ok xs.
Proof.
  intros (body & Hbody & Hxs & _). unfold optChain at 1.
  rewrite (getProp_Ok_nonnullish _ _ _ Hbody), Hbody. simpl.
  unfold optChain. by rewrite (getProp_Ok_nonnullish _ _ _ Hxs).
Qed.

(** [d?.data.k] throws exactly when [d] is there and its [data] is not. *)
Lemma outer_guard_throws_iff (k : string) (d : value) :
  (∃ e, optChain d (λ d, d ← getProp d "data"; getProp d k) = Throw e)
  ↔ innerDataAbsent d.
Proof.
  split; [|intros Hd; rewrite (outer_guard_throws _ _ Hd); by eexists].
  intros [e He]. unfold optChain in He.
  destruct (isNullish d) eqn:Hd; [done|]. split; [done|].
  destruct (getProp_defined d "data" Hd) as [body Hbody]. exists body. split; [done|].
  rewrite Hbody in He. simpl in He.
  destruct (isNullish body) eqn:Hb; [done|].
  destruct (getProp_defined body k Hb) as [x Hx]. by rewrite Hx in He.
Qed.

(** X1.  A list that is there is handed on as it is: when the body of the
    fetched value has a non-nullish [results] (or [setMembers]), each hook
    returns that very value in its domain field, whatever it is. *)
Theorem hooks_hand_list_through {W : Type} (F : Framework W) (w : W) (xs : value) :
  (listPresent "results" (data (useSWR (Some billableServicesUrl) fetcher w).1) xs →
     field "billableServices" (useBillableServices w).1 = Ok xs)
  ∧ (listPresent "setMembers" (data (useSWR (Some serviceTypesUrl) fetcher w).1) xs →
     field "serviceTypes" (useServiceTypes w).1 = Ok xs)
  ∧ (listPresent "results" (data (useSWR (Some paymentModesUrl) fetcher w).1) xs →
     field "paymentModes" (usePaymentModes w).1 = Ok xs)
  ∧ (∀ t : string,
     listPresent "results"
       (data (useSWR (if truthy (VStr t) then Some (conceptsSearchUrl t) else None)
                     fetcher w).1) xs →
     field "searchResults" (useConceptsSearch t w).1 = Ok xs).
Proof.
  assert (Hkeep : ∀ k d, listPresent k d xs → coalesce xs (VArr []) = xs).
  { intros k d (_ & _ & _ & Hxs). unfold coalesce. by rewrite Hxs. }
  split; [|split; [|split]].
  - intros Hd. rewrite useBillableServices_unfold. cbv zeta. cbn [fst].
    rewrite (outer_guard_present _ _ _ Hd). cbn. by rewrite (Hkeep _ _ Hd).
  - intros Hd. rewrite useServiceTypes_unfold. cbv zeta. cbn [fst].
    rewrite (outer_guard_present _ _ _ Hd). cbn. by rewrite (Hkeep _ _ Hd).
  - intros Hd. rewrite usePaymentModes_unfold. cbv zeta. cbn [fst].
    rewrite (outer_guard_present _ _ _ Hd). cbn. by rewrite (Hkeep _ _ Hd).
  - intros t Hd. rewrite useConceptsSearch_unfold. cbv zeta. cbn [fst].
    rewrite (both_guards_present _ _ _ Hd). cbn. by rewrite (Hkeep _ _ Hd).
Qed.

Lemma hooks_hand_list_through_witness :
  field "billableServices"
    (useBillableServices (F := cachedQuery "/ws/rest/v1/")
       (answered billableServicesUrl
          (VObj [("data", VObj [("results", VArr [VObj [("uuid", VStr "s1")]])])]))).1
    = Ok (VArr [VObj [("uuid", VStr "s1")]])
  ∧ field "searchResults"
      (useConceptsSearch (F := cachedQuery "/ws/rest/v1/") "malaria"
         (answered "/ws/rest/v1/conceptsearch?q=malaria"
            (VObj [("data", VObj [("results", VStr "")])]))).1
    = Ok (VStr "").
Proof.
  split.
  - apply (proj1 (hooks_hand_list_through (cachedQuery "/ws/rest/v1/") _ _)).
    exists (VObj [("results", VArr [VObj [("uuid", VStr "s1")]])]).
    split; [vm_compute; reflexivity|]. split; reflexivity.
  - apply (proj2 (proj2 (proj2 (hooks_hand_list_through (cachedQuery "/ws/rest/v1/") _ _)))).
    exists (VObj [("results", VStr "")]).
    split; [vm_compute; reflexivity|]. split; reflexivity.
Defined.

(** X2.  Whenever a hook returns, its domain field is neither [undefined]
    nor [null]; [useConceptsSearch] returns for every term and state. *)
Theorem domain_field_never_nullish {W : Type} (F : Framework W) (w : W) :
  (∀ o, (useBillableServices w).1 = Ok o →
     ∃ v, getProp o "billableServices" = Ok v ∧ isNullish v = false)
  ∧ (∀ o, (useServiceTypes w).1 = Ok o →
     ∃ v, getProp o "serviceTypes" = Ok v ∧ isNullish v = false)
  ∧ (∀ o, (usePaymentModes w).1 = Ok o →
     ∃ v, getProp o "paymentModes" = Ok v ∧ isNullish v = false)
  ∧ (∀ t : string,
     ∃ o v, (useConceptsSearch t w).1 = Ok o
            ∧ getProp o "searchResults" = Ok v ∧ isNullish v = false).
Proof.
  split; [|split; [|split]].
  - intros o. rewrite useBillableServices_unfold. cbv zeta. cbn [fst].
    destruct (outer_guard_cases "results"
                (data (useSWR (Some billableServicesUrl) fetcher w).1)) as [-> | [x ->]];
      [done|]. cbn. intros [= <-]. eexists. split; [reflexivity|].
    apply coalesce_never_nullish.
  - intros o. rewrite useServiceTypes_unfold. cbv zeta. cbn [fst].
    destruct (outer_guard_cases "setMembers"
                (data (useSWR (Some serviceTypesUrl) fetcher w).1)) as [-> | [x ->]];
      [done|]. cbn. intros [= <-]. eexists. split; [reflexivity|].
    apply coalesce_never_nullish.
  - intros o. rewrite usePaymentModes_unfold. cbv zeta. cbn [fst].
    destruct (outer_guard_cases "results"
                (data (useSWR (Some paymentModesUrl) fetcher w).1)) as [-> | [x ->]];
      [done|]. cbn. intros [= <-]. eexists. split; [reflexivity|].
    apply coalesce_never_nullish.
  - intros t. rewrite useConceptsSearch_unfold. cbv zeta. cbn [fst].
    destruct (both_guards_total "results"
                (data (useSWR (if truthy (VStr t) then Some (conceptsSearchUrl t) else None)
                              fetcher w).1)) as [x ->].
    cbn. eexists _, _. split; [reflexivity|]. split; [reflexivity|].
    apply coalesce_never_nullish.
Qed.

Lemma domain_field_never_nullish_witness :
  ∃ v, getProp (VObj [("paymentModes", VArr []); ("error", VUndefined);
                      ("isLoading", VBool true)]) "paymentModes" = Ok v
       ∧ isNullish v = false.
Proof.
  apply (proj1 (proj2 (proj2
    (domain_field_never_nullish (cachedQuery "/ws/rest/v1/") emptyWorld)))).
  vm_compute. reflexivity.
Defined.

(** X3.  [useBillableServices], [useServiceTypes] and [usePaymentModes]
    throw in exactly one kind of state: the fetched value is there and its
    inner [data] is [undefined] or [null].  [useConceptsSearch] throws in
    no state. *)
Theorem hooks_throw_iff_inner_data_absent {W : Type} (F : Framework W) (w : W) :
  ((∃ e, (useBillableServices w).1 = Throw e)
     ↔ innerDataAbsent (data (useSWR (Some billableServicesUrl) fetcher w).1))
  ∧ ((∃ e, (useServiceTypes w).1 = Throw e)
     ↔ innerDataAbsent (data (useSWR (Some serviceTypesUrl) fetcher w).1))
  ∧ ((∃ e, (usePaymentModes w).1 = Throw e)
     ↔ innerDataAbsent (data (useSWR (Some paymentModesUrl) fetcher w).1))
  ∧ (∀ (t : string) (e : exn), (useConceptsSearch t w).1 ≠ Throw e).
Proof.
  assert (Hbind : ∀ (m : result value) (f : value → value),
            (∃ e, (x ← m; mret (f x)) = Throw e) ↔ (∃ e, m = Throw e)).
  { intros [x|e] f; cbn; split; intros [e' He]; try done; by eexists. }
  split; [|split; [|split]].
  - rewrite useBillableServices_unfold. cbv zeta. cbn [fst].
    rewrite Hbind. apply outer_guard_throws_iff.
  - rewrite useServiceTypes_unfold. cbv zeta. cbn [fst].
    rewrite Hbind. apply outer_guard_throws_iff.
  - rewrite usePaymentModes_unfold. cbv zeta. cbn [fst].
    rewrite Hbind. apply outer_guard_throws_iff.
  - intros t e. rewrite useConceptsSearch_unfold. cbv zeta. cbn [fst].
    destruct (both_guards_total "results"
                (data (useSWR (if truthy (VStr t) then Some (conceptsSearchUrl t) else None)
                              fetcher w).1)) as [x ->].
    done.
Qed.

Lemma hooks_throw_iff_inner_data_absent_witness :
  ∃ e, (usePaymentModes (F := cachedQuery "/ws/rest/v1/")
          (answered "/ws/rest/v1/cashier/paymentMode" noContentResponse)).1 = Throw e.
Proof.
  apply (proj2 (proj1 (proj2 (proj2
    (hooks_throw_iff_inner_data_absent (cachedQuery "/ws/rest/v1/") _))))).
  split; [vm_compute; reflexivity|]. exists VNull. split; [vm_compute; reflexivity | done].
Defined.

(** * Further properties of the keys *)

Lemma string_app_length (a b : string) :
  String.length (a +:+ b) = (String.length a + String.length b)%nat.
Proof. induction a as [|c a IH]; [done|]. simpl. by rewrite IH. Qed.

(** A common ending can be cancelled. *)
Lemma string_app_inv_tail (a a' s : string) : a +:+ s = a' +:+ s → a = a'.
Proof.
  revert a'. induction a as [|c a IH]; intros [|c' a'] Heq; simpl in Heq.
  - done.
  - apply (f_equal String.length) in Heq. simpl in Heq.
    rewrite !string_app_length in Heq. simpl in Heq. lia.
  - apply (f_equal String.length) in Heq. simpl in Heq.
    rewrite !string_app_length in Heq. simpl in Heq. lia.
  - injection Heq as -> Heq. f_equal. by apply IH.
Qed.

(** X4.  Search terms never share a cache key: two terms for which
    [useConceptsSearch] passes the same key are the same term.  Nor does a
    search share its key with [useBillableServices] or [useServiceTypes],
    whose keys differ from each other as well. *)
Theorem search_keys_are_separate (base : string) :
  (∀ t1 t2 : string,
     keysRequested base (λ W F, useConceptsSearch t1)
       = keysRequested base (λ W F, useConceptsSearch t2) ↔ t1 = t2)
  ∧ (∀ t : string,
       keysRequested base (λ W F, useConceptsSearch t)
         ≠ keysRequested base (@useBillableServices)
       ∧ keysRequested base (λ W F, useConceptsSearch t)
         ≠ keysRequested base (@useServiceTypes))
  ∧ keysRequested base (@useBillableServices) ≠ keysRequested base (@useServiceTypes).
Proof.
  split; [|split].
  - intros t1 t2. split; [|by intros ->].
    destruct t1 as [|c1 t1], t2 as [|c2 t2]; cbn; intros Heq; try done.
    by simplify_eq.
  - intros t. destruct t as [|c t]; cbn; split; intros Heq; discriminate Heq.
  - cbn. intros Heq. discriminate Heq.
Qed.

(** X5.  Of all the hooks only [usePaymentModes] reads [restBaseUrl]:
    the keys of the other three, and the request of
    [createBillableSerice], are the same under every base, while two bases
    give [usePaymentModes] the same key only when they are the same base. *)
Theorem only_payment_modes_reads_base (base base' : string) :
  keysRequested base (@useBillableServices) = keysRequested base' (@useBillableServices)
  ∧ keysRequested base (@useServiceTypes) = keysRequested base' (@useServiceTypes)
  ∧ (∀ t : string,
       keysRequested base (λ W F, useConceptsSearch t)
         = keysRequested base' (λ W F, useConceptsSearch t))
  ∧ (∀ (payload : value) (w : World),
       createBillableSerice (F := cachedQuery base) payload w
         = createBillableSerice (F := cachedQuery base') payload w)
  ∧ (keysRequested base (@usePaymentModes) = keysRequested base' (@usePaymentModes)
     ↔ base = base').
Proof.
  split; [reflexivity|]. split; [reflexivity|]. split; [reflexivity|].
  split; [reflexivity|].
  split; [|by intros ->].
  unfold keysRequested, usePaymentModes, paymentModesUrl. cbn.
  intros [= Heq]. by apply string_app_inv_tail in Heq.
Qed.

(** * The test doubles *)

Section MockFacts.
Import Mocks.

Lemma string_app_cons (x : ascii) (a b : string) :
  String x a +:+ b = String x (a +:+ b).
Proof. reflexivity. Qed.

Lemma string_app_empty_l (a : string) : "" +:+ a = a.
Proof. reflexivity. Qed.

Lemma string_app_assoc (a b c : string) : (a +:+ b) +:+ c = a +:+ b +:+ c.
Proof. induction a as [|x a IH]; [done|]. rewrite !string_app_cons. by f_equal. Qed.

Lemma string_app_empty_r (a : string) : a +:+ "" = a.
Proof. induction a as [|x a IH]; [done|]. rewrite string_app_cons. by f_equal. Qed.

Lemma stripPrefix_Some (p s rest : string) :
  stripPrefix p s = Some rest ↔ s = p +:+ rest.
Proof.
  revert s. induction p as [|a p IH]; intros s; simpl.
  - split; [by intros [= ->] | by intros ->].
  - destruct s as [|b s]; [done|].
    destruct (Ascii.eqb_spec a b) as [->|Hab].
    + rewrite IH. split; [by intros -> | by intros [= ->]].
    + split; [done | intros [= -> _]; done].
Qed.

Lemma firstOccurrence_Some (p s before after : string) :
  firstOccurrence p s = Some (before, after) → s = before +:+ p +:+ after.
Proof.
  revert before. induction s as [|c s IH]; intros before; simpl.
  - destruct (stripPrefix p "") as [rest|] eqn:Hp; [|done].
    intros [= <- <-]. by apply stripPrefix_Some in Hp.
  - destruct (stripPrefix p (String c s)) as [rest|] eqn:Hp.
    + intros [= <- <-]. by apply stripPrefix_Some in Hp.
    + destruct (firstOccurrence p s) as [[a b]|]; [|done].
      simpl. intros [= <- <-]. rewrite string_app_cons. f_equal. by apply IH.
Qed.

Lemma firstOccurrence_None (p s : string) :
  firstOccurrence p s = None ↔ ¬ occursIn p s.
Proof.
  split.
  - induction s as [|c s IH]; simpl.
    + destruct (stripPrefix p "") as [rest|] eqn:Hp; [done|].
      intros _ ([|x a] & b & Heq); [|done].
      rewrite ?string_app_empty_l, ?string_app_cons in Heq. apply stripPrefix_Some in Heq. congruence.
    + destruct (stripPrefix p (String c s)) as [rest|] eqn:Hp; [done|].
      destruct (firstOccurrence p s) as [ab|]; [done|].
      intros _ ([|x a] & b & Heq).
      * rewrite ?string_app_empty_l, ?string_app_cons in Heq. apply stripPrefix_Some in Heq. congruence.
      * rewrite ?string_app_empty_l, ?string_app_cons in Heq. injection Heq as _ Heq. apply IH; [done|]. by exists a, b.
  - intros Hno. destruct (firstOccurrence p s) as [[a b]|] eqn:Hocc; [|done].
    destruct Hno. exists a, b. by apply firstOccurrence_Some.
Qed.

Lemma dollarFree_app (a b : string) :
  dollarFree (a +:+ b) = dollarFree a && dollarFree b.
Proof.
  induction a as [|c a IH]; [done|]. rewrite string_app_cons. simpl.
  rewrite IH. by destruct (Ascii.eqb c "$").
Qed.

(** A placeholder that follows a text without dollar signs is found
    right there. *)
Lemma firstOccurrence_after_plain (p before after : string) :
  dollarFree before = true →
  firstOccurrence (String "$" p) (before +:+ String "$" p +:+ after)
    = Some (before, after).
Proof.
  intros Hfree. induction before as [|c before IH].
  - rewrite string_app_empty_l, string_app_cons. simpl.
    by rewrite (proj2 (stripPrefix_Some p (p +:+ after) after) eq_refl).
  - simpl in Hfree. apply andb_true_iff in Hfree as [Hc Hfree].
    rewrite string_app_cons. cbn [firstOccurrence stripPrefix].
    rewrite Ascii.eqb_sym. destruct (Ascii.eqb c "$"); [done|].
    by rewrite (IH Hfree).
Qed.

(** A replacement without dollar signs stands for itself. *)
Lemma getSubstitution_plain (matched before after replacement : string) :
  dollarFree replacement = true →
  getSubstitution matched before after replacement = replacement.
Proof.
  induction replacement as [|c r IH]; [done|]. simpl.
  destruct (Ascii.eqb c "$"); [done|]. simpl. by intros ->%IH.
Qed.

Lemma replace_plain (p before after replacement : string) :
  dollarFree before = true → dollarFree replacement = true →
  replace (before +:+ String "$" p +:+ after) (String "$" p) replacement
    = before +:+ replacement +:+ after.
Proof.
  intros Hb Hr. unfold replace.
  by rewrite (firstOccurrence_after_plain _ _ _ Hb), (getSubstitution_plain _ _ _ _ Hr).
Qed.

Lemma replace_absent (s p replacement : string) :
  ¬ occursIn p s → replace s p replacement = s.
Proof. intros Hno%firstOccurrence_None. unfold replace. by rewrite Hno. Qed.

(** X6.  A [to] that holds neither placeholder is the [href] as it is,
    whatever the ids. *)
Theorem link_without_placeholders (children to : string) (templateParams : TemplateParams) :
  ¬ occursIn "${patientUuid}" to →
  ¬ occursIn "${uuid}" to →
  href (ConfigurableLink children to templateParams) = to.
Proof.
  intros Hp Hu. unfold ConfigurableLink. simpl.
  rewrite (replace_absent to _ _ Hp). by apply replace_absent.
Qed.

Lemma link_without_placeholders_witness :
  href (ConfigurableLink "John Doe" "/home/billing/${patient}"
          {| patientUuid := "uuid1"; uuid := "1" |})
    = "/home/billing/${patient}".
Proof.
  apply link_without_placeholders; apply firstOccurrence_None; reflexivity.
Defined.

(** X7.  When the ids and the text before each placeholder hold no
    dollar sign, the [href] is [to] with [${patientUuid}] and then
    [${uuid}] filled in; what follows [${uuid}] is kept as it is, further
    placeholders included. *)
Theorem link_fills_placeholders (children pre mid post : string)
    (templateParams : TemplateParams) :
  dollarFree pre = true → dollarFree mid = true →
  dollarFree (patientUuid templateParams) = true →
  dollarFree (uuid templateParams) = true →
  href (ConfigurableLink children
          (pre +:+ "${patientUuid}" +:+ mid +:+ "${uuid}" +:+ post) templateParams)
    = pre +:+ patientUuid templateParams +:+ mid +:+ uuid templateParams +:+ post.
Proof.
  intros Hpre Hmid Hpid Huid. unfold ConfigurableLink. cbn [href].
  rewrite (replace_plain "{patientUuid}" pre _ _ Hpre Hpid).
  assert (Hfilled : dollarFree (pre +:+ patientUuid templateParams +:+ mid) = true)
    by (by rewrite !dollarFree_app, Hpre, Hpid, Hmid).
  assert (Hgroup : pre +:+ patientUuid templateParams +:+ mid +:+ "${uuid}" +:+ post
                   = (pre +:+ patientUuid templateParams +:+ mid) +:+ "${uuid}" +:+ post)
    by (by rewrite !string_app_assoc).
  rewrite Hgroup, (replace_plain "{uuid}" _ post _ Hfilled Huid).
  by rewrite !string_app_assoc.
Qed.

Lemma link_fills_placeholders_witness :
  href (ConfigurableLink "John Doe" "/home/billing/patient/${patientUuid}/${uuid}"
          {| patientUuid := "uuid1"; uuid := "1" |})
    = "/home/billing/patient/uuid1/1".
Proof.
  apply (link_fills_placeholders "John Doe" "/home/billing/patient/" "/" ""
           {| patientUuid := "uuid1"; uuid := "1" |}); reflexivity.
Defined.

(** X8.  The ids are read as replacement patterns, not as plain text: a
    patient id [$&] puts the placeholder back, so only [${uuid}] is filled
    in, and a patient id [$$] is written as one dollar sign. *)
Theorem link_ids_are_patterns (children to u : string) :
  href (ConfigurableLink children to {| patientUuid := "$&"; uuid := u |})
    = replace to "${uuid}" u
  ∧ ∀ pre post : string,
      dollarFree pre = true →
      replace (pre +:+ "${patientUuid}" +:+ post) "${patientUuid}" "$$"
        = pre +:+ "$" +:+ post.
Proof.
  split.
  - unfold ConfigurableLink. cbn [href patientUuid uuid]. f_equal.
    unfold replace. destruct (firstOccurrence _ to) as [[a b]|] eqn:Hocc; [|done].
    apply firstOccurrence_Some in Hocc. by rewrite Hocc.
  - intros pre post Hpre. unfold replace.
    by rewrite (firstOccurrence_after_plain "{patientUuid}" _ _ Hpre).
Qed.

Lemma link_ids_are_patterns_witness :
  replace ("/patient/" +:+ "${patientUuid}" +:+ "/edit") "${patientUuid}" "$$"
    = "/patient/" +:+ "$" +:+ "/edit".
Proof.
  apply (proj2 (link_ids_are_patterns "" "" "") "/patient/" "/edit"). reflexivity.
Defined.

(** X9.  The text of the error state is found without a throw for every
    [error], [null] and [undefined] included: it is the [message] of the
    error when that is truthy, and the error itself otherwise. *)
Theorem error_state_text (error : value) :
  (isNullish error = true → ErrorState error = Ok error)
  ∧ (∀ m, getProp error "message" = Ok m →
       ErrorState error = Ok (if truthy m then m else error))
  ∧ ∃ v, ErrorState error = Ok v ∧ (v = error ∨ getProp error "message" = Ok v).
Proof.
  assert (Hmsg : ∀ m, getProp error "message" = Ok m →
                 ErrorState error = Ok (if truthy m then m else error)).
  { intros m Hm. unfold ErrorState, optChain.
    by rewrite (getProp_Ok_nonnullish _ _ _ Hm), Hm. }
  assert (Hnull : isNullish error = true → ErrorState error = Ok error).
  { intros Hn. unfold ErrorState, optChain. by rewrite Hn. }
  split; [done|]. split; [done|].
  destruct (isNullish error) eqn:Hn.
  - exists error. split; [by apply Hnull | by left].
  - destruct (getProp_defined error "message" Hn) as [m Hm].
    rewrite (Hmsg m Hm). destruct (truthy m); eexists; split; eauto.
Qed.

Lemma error_state_text_witness :
  ErrorState VNull = Ok VNull
  ∧ ErrorState (VObj [("message", VStr "Error in fetching data")])
    = Ok (VStr "Error in fetching data").
Proof.
  split.
  - apply (proj1 (error_state_text VNull)). reflexivity.
  - apply (proj1 (proj2 (error_state_text
             (VObj [("message", VStr "Error in fetching data")])))
             (VStr "Error in fetching data")).
    reflexivity.
Defined.

(** X10.  The mocked formatter shows different safe-integer amounts as
    different texts: two safe integers have the same text only when they
    are the same amount. *)
Theorem format_tells_amounts_apart (a b : Z) :
  isSafeInteger a = true → isSafeInteger b = true →
  format a = format b ↔ a = b.
Proof.
  intros _ _. split; [|by intros ->].
  unfold format, toFixed2. rewrite !string_app_cons, !string_app_empty_l.
  intros [= Heq]. apply string_app_inv_tail in Heq. by apply (inj pretty).
Qed.

Lemma format_tells_amounts_apart_witness :
  format 200 = format 100 ↔ 200 = 100.
Proof. apply (format_tells_amounts_apart 200 100); reflexivity. Defined.
End MockFacts.
